(** * oqsopenssl: a Go wrapper that drives the [openssl] command line tool

    The package builds argument vectors for the external toolkit, runs
    them to completion ([runCommand]) or leaves them running with pipes
    attached ([StartServer], [StartClient]), and keeps one temporary
    extension file for the duration of [SignCertificate].

    The embedding is a state monad over a [World] holding what the
    package can observe or change: the entries of the temporary
    directory, the processes left running and the chronological trace of
    calls made to the operating system.  What the operating system and
    the toolkit answer is not decided by the package; it is supplied by
    an [Env] of oracles, one per system call the source makes. *)

From Stdlib Require Import Ascii.
From stdpp Require Import base option list strings gmap pretty.

Open Scope Z_scope.

(** ** Go values *)

(** A Go [error] value.  [SysError] stands for an error produced by
    package os or os/exec.  The other two are what [fmt.Errorf] builds:
    a plain text when the format has no [%w] verb, and a text together
    with the operand of [%w] when it has one. *)
Inductive error : Type :=
| SysError (text : string)
| ErrorString (text : string)
| WrapError (text : string) (wrapped : error).

(** [err.Error()] *)
Definition Error (e : error) : string :=
  match e with
  | SysError text => text
  | ErrorString text => text
  | WrapError text _ => text
  end.

(** [errors.Unwrap(err)] *)
Definition Unwrap (e : error) : option error :=
  match e with
  | SysError _ => None
  | ErrorString _ => None
  | WrapError _ wrapped => Some wrapped
  end.

(** The Go escape [\n]. *)
Definition newline : string := String (Ascii.ascii_of_nat 10) "".

(** Operands of the fmt functions, as the source passes them: strings,
    an [int] and error values. *)
Inductive fmt_arg : Type :=
| ArgString (s : string)
| ArgInt (n : Z)
| ArgError (e : error).

(** Default formatting of an operand: a string as it is, an int in
    decimal, an error through its [Error] method. *)
Definition fmt_operand (a : fmt_arg) : string :=
  match a with
  | ArgString s => s
  | ArgInt n => pretty n
  | ArgError e => Error e
  end.

(** [fmt.Sprintf] for the verbs the source uses ([%s] on strings and
    errors, [%d] on ints, [%w] on errors inside [fmt.Errorf]): every
    verb consumes the next operand. *)
Fixpoint fmt_Sprintf (format : string) (args : list fmt_arg) : string :=
  match format with
  | EmptyString => EmptyString
  | String c rest =>
      if Ascii.eqb c "%"%char then
        match rest with
        | EmptyString => "%!(NOVERB)"
        | String v rest' =>
            match args with
            | a :: args' => fmt_operand a +:+ fmt_Sprintf rest' args'
            | [] => "%!" +:+ String v "(MISSING)" +:+ fmt_Sprintf rest' []
            end
        end
      else String c (fmt_Sprintf rest args)
  end.

(** The operand of the first [%w] verb of a format, if any. *)
Fixpoint fmt_wrapped (format : string) (args : list fmt_arg) : option error :=
  match format with
  | EmptyString => None
  | String c rest =>
      if Ascii.eqb c "%"%char then
        match rest with
        | EmptyString => None
        | String v rest' =>
            match args with
            | a :: args' =>
                if Ascii.eqb v "w"%char then
                  match a with
                  | ArgError e => Some e
                  | _ => None
                  end
                else fmt_wrapped rest' args'
            | [] => None
            end
        end
      else fmt_wrapped rest args
  end.

(** [fmt.Errorf] *)
Definition fmt_Errorf (format : string) (args : list fmt_arg) : error :=
  match fmt_wrapped format args with
  | Some e => WrapError (fmt_Sprintf format args) e
  | None => ErrorString (fmt_Sprintf format args)
  end.

(** [*exec.Cmd] as built by [exec.Command]: the program and the full
    argument vector, program name first. *)
Record Cmd : Type := mkCmd { Path : string; Args : list string }.

(** [exec.Command(name, arg...)] *)
Definition exec_Command (name : string) (arg : list string) : Cmd :=
  {| Path := name; Args := name :: arg |}.

(** The pipe ends handed back by [StdoutPipe] and [StdinPipe]. *)
Inductive ReadCloser : Type := StdoutOf (c : Cmd).
Inductive WriteCloser : Type := StdinOf (c : Cmd).

(** ** The world *)

(** One entry per call into the operating system, with its answer. *)
Inductive Event : Type :=
| EvTempFile (pattern : string) (r : string + error)
| EvWriteString (name data : string) (r : option error)
| EvClose (name : string) (r : option error)
| EvRemove (name : string) (r : option error)
| EvCombinedOutput (c : Cmd) (tmp : gmap string string)
                   (output : string) (r : option error)
| EvStdoutPipe (c : Cmd) (r : option error)
| EvStdinPipe (c : Cmd) (r : option error)
| EvStart (c : Cmd) (r : option error)
| EvStdout (text : string).

(** [w_tmp]: the temporary directory, path to contents.
    [w_running]: processes started and not waited for.
    [w_trace]: every call so far, oldest first; an [EvCombinedOutput]
    carries the temporary directory as the spawned process found it. *)
Record World : Type := mkWorld {
  w_tmp : gmap string string;
  w_running : list Cmd;
  w_trace : list Event
}.

(** What the operating system and the toolkit answer.  Each oracle sees
    the whole world, trace included, so answers may depend on history. *)
Record Env : Type := mkEnv {
  env_TempFile : World → string → string → string + error;
  env_WriteString : World → string → string → nat * option error;
  env_Close : World → string → option error;
  env_Remove : World → string → option error;
  env_CombinedOutput :
    World → Cmd → string * option error * gmap string string;
  env_StdoutPipe : World → Cmd → option error;
  env_StdinPipe : World → Cmd → option error;
  env_Start : World → Cmd → option error
}.

(** ** The monad *)

Definition M (A : Type) : Type := World → A * World.

Global Instance M_ret : MRet M := λ A (a : A) w, (a, w).

Global Instance M_bind : MBind M :=
  λ A B (k : A → M B) (m : M A) w, let '(a, w') := m w in k a w'.

(** A call logged in the trace. *)
Definition emit (ev : Event) (w : World) : World :=
  {| w_tmp := w_tmp w; w_running := w_running w;
     w_trace := w_trace w ++ [ev] |}.

Definition set_tmp (tmp : gmap string string) (w : World) : World :=
  {| w_tmp := tmp; w_running := w_running w; w_trace := w_trace w |}.

(** [defer f()] around the rest of a function body: the body runs, then
    the deferred call, and the body's result is what is returned. *)
Definition defer {A B} (deferred : M B) (body : M A) : M A :=
  r ← body; _ ← deferred; mret r.

(** The events a call appended to the trace. *)
Definition events_since (w w' : World) : list Event :=
  drop (length (w_trace w)) (w_trace w').

(** ** Calls into os, io/ioutil, os/exec and fmt *)

Section Package.

Context (E : Env).

(** [ioutil.TempFile(dir, pattern)]: a new file, opened for writing and
    empty, whose name did not exist before; the [*os.File] is
    represented by that name.  A proposed name that is already taken is
    the library giving up with "file exists". *)
Definition ioutil_TempFile (dir pattern : string) : M (string + error) :=
  λ w,
    let r :=
      match env_TempFile E w dir pattern with
      | inl name =>
          match w_tmp w !! name with
          | Some _ => inr (SysError ("open " +:+ name +:+ ": file exists"))
          | None => inl name
          end
      | inr err => inr err
      end in
    let tmp' :=
      match r with
      | inl name => <[name := ""]> (w_tmp w)
      | inr _ => w_tmp w
      end in
    (r, emit (EvTempFile pattern r) (set_tmp tmp' w)).

(** [f.Name()] *)
Definition File_Name (f : string) : string := f.

(** [f.WriteString(s)]: on success all of [s] is appended; on failure
    the bytes written so far.  The source discards the byte count. *)
Definition File_WriteString (f : string) (s : string) : M (option error) :=
  λ w,
    let '(n, r) := env_WriteString E w f s in
    let written :=
      match r with
      | None => s
      | Some _ => String.substring 0 n s
      end in
    (r, emit (EvWriteString f s r)
             (set_tmp (alter (λ old, old +:+ written) f (w_tmp w)) w)).

(** [f.Close()] *)
Definition File_Close (f : string) : M (option error) :=
  λ w, let r := env_Close E w f in (r, emit (EvClose f r) w).

(** [os.Remove(name)]: fails on a missing file; an existing file is
    deleted unless the operating system refuses. *)
Definition os_Remove (name : string) : M (option error) :=
  λ w,
    let r :=
      match w_tmp w !! name with
      | None =>
          Some (SysError ("remove " +:+ name +:+ ": no such file or directory"))
      | Some _ => env_Remove E w name
      end in
    let tmp' :=
      match r with
      | None => delete name (w_tmp w)
      | Some _ => w_tmp w
      end in
    (r, emit (EvRemove name r) (set_tmp tmp' w)).

(** [cmd.CombinedOutput()]: the process is spawned and waited for; the
    captured stdout and stderr come back with the error, and the
    temporary directory is as the process left it. *)
Definition Cmd_CombinedOutput (cmd : Cmd) : M (string * option error) :=
  λ w,
    let '(output, r, tmp') := env_CombinedOutput E w cmd in
    ((output, r), emit (EvCombinedOutput cmd (w_tmp w) output r) (set_tmp tmp' w)).

(** [cmd.StdoutPipe()] *)
Definition Cmd_StdoutPipe (cmd : Cmd) : M (ReadCloser + error) :=
  λ w,
    let r := env_StdoutPipe E w cmd in
    (match r with None => inl (StdoutOf cmd) | Some err => inr err end,
     emit (EvStdoutPipe cmd r) w).

(** [cmd.StdinPipe()] *)
Definition Cmd_StdinPipe (cmd : Cmd) : M (WriteCloser + error) :=
  λ w,
    let r := env_StdinPipe E w cmd in
    (match r with None => inl (StdinOf cmd) | Some err => inr err end,
     emit (EvStdinPipe cmd r) w).

(** [cmd.Start()]: on success the process runs on and nobody waits. *)
Definition Cmd_Start (cmd : Cmd) : M (option error) :=
  λ w,
    let r := env_Start E w cmd in
    let running' :=
      match r with
      | None => w_running w ++ [cmd]
      | Some _ => w_running w
      end in
    (r, emit (EvStart cmd r)
             {| w_tmp := w_tmp w; w_running := running';
                w_trace := w_trace w |}).

(** [fmt.Println(a...)]: operands separated by spaces, then a newline,
    on standard output. *)
Definition fmt_Println (a : list fmt_arg) : M unit :=
  λ w, (tt, emit (EvStdout (String.concat " " (fmt_operand <$> a) +:+ newline)) w).

(** ** The package *)

(** runCommand executes an exec.Command and captures its output. *)
Definition runCommand (cmd : Cmd) (errorMessage : string) : M (option error) :=
  '(output, err) ← Cmd_CombinedOutput cmd;
  match err with
  | Some err =>
      mret (Some (fmt_Errorf ("%s: %s" +:+ newline +:+ "%s")
                    [ArgString errorMessage; ArgError err; ArgString output]))
  | None =>
      _ ← fmt_Println [ArgString output];
      mret None
  end.

(** GeneratePrivateKey generates a private key using a specified
    algorithm. *)
Definition GeneratePrivateKey (algorithm outputFile : string) : M (option error) :=
  let cmd := exec_Command "openssl"
               ["genpkey"; "-algorithm"; algorithm; "-out"; outputFile] in
  runCommand cmd "Failed to generate private key".

(** GenerateRootCertificate creates a root CA certificate. *)
Definition GenerateRootCertificate
    (keyFile outputFile subj spiffeID configFile : string) (days : Z)
    : M (option error) :=
  let cmd := exec_Command "openssl"
               ["req"; "-nodes"; "-new"; "-x509";
                "-key"; keyFile;
                "-out"; outputFile;
                "-days"; fmt_Sprintf "%d" [ArgInt days];
                "-subj"; subj;
                "-addext"; fmt_Sprintf "subjectAltName=URI:%s" [ArgString subj];
                "-config"; configFile] in
  runCommand cmd "Failed to generate root certificate".

(** GenerateCSR generates a certificate signing request (CSR) for the
    server. *)
Definition GenerateCSR
    (algorithm keyFile csrFile subj spiffeID configFile : string)
    : M (option error) :=
  let cmd := exec_Command "openssl"
               ["req"; "-nodes"; "-new";
                "-newkey"; algorithm;
                "-keyout"; keyFile;
                "-out"; csrFile;
                "-subj"; subj;
                "-config"; configFile] in
  runCommand cmd "Failed to generate CSR".

(** SignCertificate signs the server certificate with the CA
    certificate. *)
Definition SignCertificate
    (csrFile caCertFile caKeyFile spiffeID outputFile : string) (days : Z)
    : M (option error) :=
  r ← ioutil_TempFile "" "extfile-*.conf";
  match r with
  | inr err =>
      mret (Some (fmt_Errorf "failed to create temporary extension file: %w"
                    [ArgError err]))
  | inl extFile =>
      defer (os_Remove (File_Name extFile))
        (err ← File_WriteString extFile
                 (fmt_Sprintf ("subjectAltName=URI:%s" +:+ newline)
                    [ArgString spiffeID]);
         match err with
         | Some err =>
             mret (Some (fmt_Errorf
                           "failed to write to temporary extension file: %w"
                           [ArgError err]))
         | None =>
             err ← File_Close extFile;
             match err with
             | Some err =>
                 mret (Some (fmt_Errorf
                               "failed to close temporary extension file: %w"
                               [ArgError err]))
             | None =>
                 let cmd := exec_Command "openssl"
                              ["x509"; "-req";
                               "-extfile"; File_Name extFile;
                               "-in"; csrFile;
                               "-CA"; caCertFile;
                               "-CAkey"; caKeyFile;
                               "-CAcreateserial";
                               "-out"; outputFile;
                               "-days"; fmt_Sprintf "%d" [ArgInt days]] in
                 runCommand cmd "Failed to sign certificate"
             end
         end)
  end.

(** What [StartServer] and [StartClient] return: the process handle,
    the write end, the read end and the error, [None] standing for nil. *)
Definition Session : Type :=
  option Cmd * option WriteCloser * option ReadCloser * option error.

(** StartServer starts the OpenSSL server with the specified
    certificate and key. *)
Definition StartServer (certFile keyFile caFile : string) : M Session :=
  let cmd := exec_Command "openssl"
               ["s_server"; "-accept"; "4433"; "-state";
                "-cert"; certFile; "-key"; keyFile;
                "-tls1_3"; "-Verify"; "1"; "-CAfile"; caFile; "-www"] in
  r ← Cmd_StdoutPipe cmd;
  match r with
  | inr err =>
      _ ← fmt_Println [ArgString "Error creating stdout pipe:"; ArgError err];
      mret (None, None, None, Some err)
  | inl stdoutPipe =>
      r ← Cmd_StdinPipe cmd;
      match r with
      | inr err =>
          _ ← fmt_Println [ArgString "Error creating stdin pipe:"; ArgError err];
          mret (None, None, None, Some err)
      | inl stdinPipe =>
          err ← Cmd_Start cmd;
          match err with
          | Some err =>
              _ ← fmt_Println [ArgString "Error starting OpenSSL s_server:";
                               ArgError err];
              mret (None, None, None, Some err)
          | None => mret (Some cmd, Some stdinPipe, Some stdoutPipe, None)
          end
      end
  end.

(** StartClient connects to the OpenSSL server using the specified
    client certificate and key. *)
Definition StartClient (address certFile keyFile caCertFile : string) : M Session :=
  let cmd := exec_Command "openssl"
               ["s_client"; "-connect"; address; "-state";
                "-cert"; certFile; "-key"; keyFile;
                "-tls1_3"; "-CAfile"; caCertFile] in
  r ← Cmd_StdoutPipe cmd;
  match r with
  | inr err =>
      _ ← fmt_Println [ArgString "Error creating stdout pipe:"; ArgError err];
      mret (None, None, None, Some err)
  | inl stdout =>
      r ← Cmd_StdinPipe cmd;
      match r with
      | inr err =>
          _ ← fmt_Println [ArgString "Error creating stdin pipe:"; ArgError err];
          mret (None, None, None, Some err)
      | inl stdin =>
          err ← Cmd_Start cmd;
          match err with
          | Some err =>
              _ ← fmt_Println [ArgString "Error starting OpenSSL s_client:";
                               ArgError err];
              mret (None, None, None, Some err)
          | None => mret (Some cmd, Some stdin, Some stdout, None)
          end
      end
  end.

(** ValidateCertificate checks if the provided certificate is valid
    against the specified CA certificate. *)
Definition ValidateCertificate (certFile caCertFile : string) : M (option error) :=
  let cmd := exec_Command "openssl" ["verify"; "-CAfile"; caCertFile; certFile] in
  runCommand cmd "Failed to validate certificate".

End Package.

(** ** Vocabulary of the properties *)

(** [strings.Contains(s, substr)] *)
Definition contains (s substr : string) : Prop :=
  ∃ before after, s = before +:+ substr +:+ after.

(** The error [e] carries a description of the operation in front of
    the text of the error [under] it reports, as [fmt.Errorf] with
    ["<description>: %w"] or ["%s: %s..."] produces. *)
Definition describes (e under : error) : Prop :=
  ∃ description, description ≠ "" ∧ contains (Error e) (description +:+ ": " +:+ Error under).

(** Whether a text has a newline in it. *)
Fixpoint has_newline (s : string) : bool :=
  match s with
  | EmptyString => false
  | String c rest =>
      if Ascii.eqb c (Ascii.ascii_of_nat 10) then true else has_newline rest
  end.

(** The lines of a text, as a reader of a configuration file sees them:
    a newline ends a line, and text after the last newline is a line of
    its own. *)
Fixpoint lines (s : string) : list string :=
  match s with
  | EmptyString => []
  | String c rest =>
      if Ascii.eqb c (Ascii.ascii_of_nat 10) then "" :: lines rest
      else match lines rest with
           | [] => [String c ""]
           | l :: ls => String c l :: ls
           end
  end.

(** The names present in the temporary directory. *)
Definition tmp_entries (w : World) : gset string := dom (w_tmp w).

(** No external process was run to completion during these events. *)
Definition no_process (evs : list Event) : Prop :=
  ∀ c tmp output r, EvCombinedOutput c tmp output r ∉ evs.

(** One of the three set-up steps of a session failed with [err]. *)
Definition failed_setup (evs : list Event) (err : error) : Prop :=
  ∃ c, EvStdoutPipe c (Some err) ∈ evs
       ∨ EvStdinPipe c (Some err) ∈ evs
       ∨ EvStart c (Some err) ∈ evs.

(** The error component of a session result. *)
Definition session_error (s : Session) : option error := s.2.

(** The process handle of a session result. *)
Definition session_process (s : Session) : option Cmd := s.1.1.1.

(** A set-up failure reaches the caller wrapped with a description and
    not as the bare error of the failed step. *)
Definition setup_failure_wrapped
    (evs : list Event) (res : Session) (err : error) : Prop :=
  failed_setup evs err →
  ∃ e, session_error res = Some e ∧ e ≠ err ∧ describes e err.

(** The decision table of a session start on command [cmd]: which calls
    are made, in which order, what is printed, what is returned and
    which process is left running, by the answers of the three calls.
    [start_description] is the text printed when the start fails. *)
Definition session_table
    (E : Env) (cmd : Cmd) (start_description : string)
    (w : World) (out : Session * World) : Prop :=
  let r1 := env_StdoutPipe E w cmd in
  let w1 := emit (EvStdoutPipe cmd r1) w in
  let r2 := env_StdinPipe E w1 cmd in
  let w2 := emit (EvStdinPipe cmd r2) w1 in
  let r3 := env_Start E w2 cmd in
  let evs := events_since w out.2 in
  match r1 with
  | Some err =>
      out.1 = (None, None, None, Some err)
      ∧ evs = [EvStdoutPipe cmd (Some err);
               EvStdout ("Error creating stdout pipe: " +:+ Error err +:+ newline)]
      ∧ w_running out.2 = w_running w
  | None =>
      match r2 with
      | Some err =>
          out.1 = (None, None, None, Some err)
          ∧ evs = [EvStdoutPipe cmd None; EvStdinPipe cmd (Some err);
                   EvStdout ("Error creating stdin pipe: " +:+ Error err +:+ newline)]
          ∧ w_running out.2 = w_running w
      | None =>
          match r3 with
          | Some err =>
              out.1 = (None, None, None, Some err)
              ∧ evs = [EvStdoutPipe cmd None; EvStdinPipe cmd None;
                       EvStart cmd (Some err);
                       EvStdout (start_description +:+ " " +:+ Error err +:+ newline)]
              ∧ w_running out.2 = w_running w
          | None =>
              out.1 = (Some cmd, Some (StdinOf cmd), Some (StdoutOf cmd), None)
              ∧ evs = [EvStdoutPipe cmd None; EvStdinPipe cmd None;
                       EvStart cmd None]
              ∧ w_running out.2 = w_running w ++ [cmd]
          end
      end
  end.

(** The command an event is about, if it is about one. *)
Definition event_cmd (ev : Event) : option Cmd :=
  match ev with
  | EvCombinedOutput c _ _ _ | EvStdoutPipe c _ | EvStdinPipe c _
  | EvStart c _ => Some c
  | _ => None
  end.

(** ** Concrete worlds and environments *)

(** An empty temporary directory, nothing running, nothing done yet. *)
Definition w0 : World := {| w_tmp := ∅; w_running := []; w_trace := [] |}.

(** Every call succeeds; the toolkit prints "ok" and leaves the
    temporary directory as it found it. *)
Definition env_ok : Env := {|
  env_TempFile := λ _ _ _, inl "/tmp/extfile-1.conf";
  env_WriteString := λ _ _ s, (String.length s, None);
  env_Close := λ _ _, None;
  env_Remove := λ _ _, None;
  env_CombinedOutput := λ w _, ("ok", None, w_tmp w);
  env_StdoutPipe := λ _ _, None;
  env_StdinPipe := λ _ _, None;
  env_Start := λ _ _, None
|}.

Definition ENOSPC : error := SysError "no space left on device".
Definition EMFILE : error := SysError "pipe: too many open files".
Definition ENOENT : error :=
  SysError "exec: openssl: executable file not found in $PATH".
Definition exit_status_1 : error := SysError "exit status 1".

(** The toolkit fails: it prints a diagnostic and exits with status 1,
    as when the CSR path names no file. *)
Definition env_tool_fails : Env := {|
  env_TempFile := env_TempFile env_ok;
  env_WriteString := env_WriteString env_ok;
  env_Close := env_Close env_ok;
  env_Remove := env_Remove env_ok;
  env_CombinedOutput := λ w _, ("Could not open file or uri", Some exit_status_1, w_tmp w);
  env_StdoutPipe := env_StdoutPipe env_ok;
  env_StdinPipe := env_StdinPipe env_ok;
  env_Start := env_Start env_ok
|}.



(** The write to the temporary file fails after 5 bytes. *)
Definition env_write_fails : Env := {|
  env_TempFile := env_TempFile env_ok;
  env_WriteString := λ _ _ _, (5%nat, Some ENOSPC);
  env_Close := env_Close env_ok;
  env_Remove := env_Remove env_ok;
  env_CombinedOutput := env_CombinedOutput env_ok;
  env_StdoutPipe := env_StdoutPipe env_ok;
  env_StdinPipe := env_StdinPipe env_ok;
  env_Start := env_Start env_ok
|}.


(** No pipe can be created. *)
Definition env_no_pipe : Env := {|
  env_TempFile := env_TempFile env_ok;
  env_WriteString := env_WriteString env_ok;
  env_Close := env_Close env_ok;
  env_Remove := env_Remove env_ok;
  env_CombinedOutput := env_CombinedOutput env_ok;
  env_StdoutPipe := λ _ _, Some EMFILE;
  env_StdinPipe := λ _ _, Some EMFILE;
  env_Start := env_Start env_ok
|}.

(** The toolkit binary is not on the execution path. *)
Definition env_no_binary : Env := {|
  env_TempFile := env_TempFile env_ok;
  env_WriteString := env_WriteString env_ok;
  env_Close := env_Close env_ok;
  env_Remove := env_Remove env_ok;
  env_CombinedOutput := λ w _, ("", Some ENOENT, w_tmp w);
  env_StdoutPipe := env_StdoutPipe env_ok;
  env_StdinPipe := env_StdinPipe env_ok;
  env_Start := λ _ _, Some ENOENT
|}.

(** The decision table of a one-shot operation on command [cmd]: by
    the answer of the process, what is returned, what is logged and
    printed, and what becomes of the temporary directory and of the
    running processes. *)
Definition one_shot_table
    (E : Env) (cmd : Cmd) (errorMessage : string)
    (w : World) (out : option error * World) : Prop :=
  let answer := env_CombinedOutput E w cmd in
  let output := answer.1.1 in
  match answer.1.2 with
  | Some err =>
      out.1 = Some (ErrorString
                      (errorMessage +:+ ": " +:+ Error err +:+ newline +:+ output))
      ∧ events_since w out.2 = [EvCombinedOutput cmd (w_tmp w) output (Some err)]
  | None =>
      out.1 = None
      ∧ events_since w out.2
        = [EvCombinedOutput cmd (w_tmp w) output None;
           EvStdout (output +:+ newline)]
  end
  ∧ w_tmp out.2 = answer.2
  ∧ w_running out.2 = w_running w.

(** The five shapes a call of [SignCertificate] can take, by the step
    that fails, with [line] the text written and [cmd] the signing
    command on the created file. *)
Definition sign_shapes
    (line : string) (cmd : string → Cmd) (w : World)
    (out : option error * World) : Prop :=
  let evs := events_since w out.2 in
  (∃ err,
      evs = [EvTempFile "extfile-*.conf" (inr err)]
      ∧ out.1 = Some (WrapError
                        ("failed to create temporary extension file: "
                         +:+ Error err) err))
  ∨ (∃ name err r,
      evs = [EvTempFile "extfile-*.conf" (inl name);
             EvWriteString name line (Some err);
             EvRemove name r]
      ∧ out.1 = Some (WrapError
                        ("failed to write to temporary extension file: "
                         +:+ Error err) err))
  ∨ (∃ name err r,
      evs = [EvTempFile "extfile-*.conf" (inl name);
             EvWriteString name line None;
             EvClose name (Some err);
             EvRemove name r]
      ∧ out.1 = Some (WrapError
                        ("failed to close temporary extension file: "
                         +:+ Error err) err))
  ∨ (∃ name tmp output err r,
      evs = [EvTempFile "extfile-*.conf" (inl name);
             EvWriteString name line None;
             EvClose name None;
             EvCombinedOutput (cmd name) tmp output (Some err);
             EvRemove name r]
      ∧ out.1 = Some (ErrorString
                        ("Failed to sign certificate: " +:+ Error err
                         +:+ newline +:+ output)))
  ∨ (∃ name tmp output r,
      evs = [EvTempFile "extfile-*.conf" (inl name);
             EvWriteString name line None;
             EvClose name None;
             EvCombinedOutput (cmd name) tmp output None;
             EvStdout (output +:+ newline);
             EvRemove name r]
      ∧ out.1 = None).

(** A call that leaves no process behind and concerns at most one
    command. *)
Definition waits_for_its_process (w : World) (out : option error * World) : Prop :=
  w_running out.2 = w_running w
  ∧ (length (omap event_cmd (events_since w out.2)) ≤ 1)%nat.

(** A temporary directory that already holds a file under the name the
    operating system of [env_ok] proposes. *)
Definition w_taken : World :=
  {| w_tmp := {["/tmp/extfile-1.conf" := "earlier contents"]};
     w_running := []; w_trace := [] |}.

(** ** Proof tools *)

(** Unfold the package and the calls it makes, leaving maps, lists and
    strings folded. *)
Ltac go :=
  cbv beta iota zeta delta
    [SignCertificate GeneratePrivateKey GenerateRootCertificate GenerateCSR
     ValidateCertificate StartServer StartClient runCommand defer
     mbind M_bind mret M_ret ioutil_TempFile File_WriteString File_Close
     os_Remove Cmd_CombinedOutput Cmd_StdoutPipe Cmd_StdinPipe Cmd_Start
     fmt_Println emit set_tmp File_Name events_since tmp_entries
     session_table session_error session_process one_shot_table sign_shapes
     w_tmp w_running w_trace fst snd].

(** Case on the answer of the next call into the environment. *)
Ltac oracle :=
  match goal with
  | |- context [env_TempFile ?E ?w ?d ?p] =>
      destruct (env_TempFile E w d p) as [?name|?err] eqn:?
  | |- context [env_WriteString ?E ?w ?f ?s] =>
      destruct (env_WriteString E w f s) as [?n [?err|]] eqn:?
  | |- context [env_Close ?E ?w ?f] =>
      destruct (env_Close E w f) as [?err|] eqn:?
  | |- context [env_Remove ?E ?w ?f] =>
      destruct (env_Remove E w f) as [?err|] eqn:?
  | |- context [env_CombinedOutput ?E ?w ?c] =>
      destruct (env_CombinedOutput E w c) as [[?output [?err|]] ?tmp] eqn:?
  | |- context [env_StdoutPipe ?E ?w ?c] =>
      destruct (env_StdoutPipe E w c) as [?err|] eqn:?
  | |- context [env_StdinPipe ?E ?w ?c] =>
      destruct (env_StdinPipe E w c) as [?err|] eqn:?
  | |- context [env_Start ?E ?w ?c] =>
      destruct (env_Start E w c) as [?err|] eqn:?
  | |- context [match ?m !! ?k with _ => _ end] =>
      destruct (m !! k) eqn:?
  end; go.

(** The events appended to a trace. *)
Ltac new_events :=
  rewrite <- ?app_assoc; cbn [app]; rewrite ?drop_app_length.

(** Decide which event of an explicit list a membership speaks of. *)
Ltac which_event :=
  repeat match goal with
         | H : _ ∈ _ :: _ |- _ => apply elem_of_cons in H as [H|H]
         | H : _ ∈ [] |- _ => by apply elem_of_nil in H
         | H : @eq Event _ _ |- _ => progress simplify_eq
         end.

(** Point at an event of an explicit list. *)
Ltac in_events :=
  solve [repeat first [apply list_elem_of_here | apply list_elem_of_further]].

(** Bring in what a toolkit that leaves the temporary directory alone
    says about each of its runs. *)
Ltac tool_frame Htool :=
  repeat match goal with
         | H : env_CombinedOutput ?E ?w ?c = _ |- _ =>
             let Hd := fresh "Hdom" in
             pose proof (Htool w c) as Hd; rewrite H in Hd;
             cbn [fst snd w_tmp] in Hd; revert H
         end;
  intros.

(** ** Strings and formats *)

Lemma append_nil_r (s : string) : s +:+ "" = s.
Proof.
  induction s as [|c s IH]; [done|].
  change (String c (s +:+ "") = String c s). by f_equal.
Qed.

Lemma append_assoc (s1 s2 s3 : string) :
  (s1 +:+ s2) +:+ s3 = s1 +:+ s2 +:+ s3.
Proof.
  induction s1 as [|c s1 IH]; [done|].
  change (String c ((s1 +:+ s2) +:+ s3) = String c (s1 +:+ s2 +:+ s3)).
  by f_equal.
Qed.

Lemma contains_prefix (s rest : string) : contains (s +:+ rest) s.
Proof. by exists "", rest. Qed.

Lemma contains_append_l (p s sub : string) :
  contains s sub → contains (p +:+ s) sub.
Proof.
  intros (before & after & ->). exists (p +:+ before), after.
  by rewrite append_assoc.
Qed.

Lemma contains_suffix (p s : string) : contains (p +:+ s) s.
Proof.
  apply contains_append_l. exists "", "". by rewrite append_nil_r.
Qed.

Lemma Sprintf_d (n : Z) : fmt_Sprintf "%d" [ArgInt n] = pretty n.
Proof. apply append_nil_r. Qed.

Lemma Sprintf_SAN (s : string) :
  fmt_Sprintf "subjectAltName=URI:%s" [ArgString s] = "subjectAltName=URI:" +:+ s.
Proof.
  transitivity ("subjectAltName=URI:" +:+ (s +:+ "")); [done|].
  by rewrite append_nil_r.
Qed.

Lemma Sprintf_SAN_line (s : string) :
  fmt_Sprintf ("subjectAltName=URI:%s" +:+ newline) [ArgString s]
  = "subjectAltName=URI:" +:+ s +:+ newline.
Proof. reflexivity. Qed.

Lemma Errorf_run (msg : string) (err : error) (output : string) :
  fmt_Errorf ("%s: %s" +:+ newline +:+ "%s")
    [ArgString msg; ArgError err; ArgString output]
  = ErrorString (msg +:+ ": " +:+ Error err +:+ newline +:+ output).
Proof.
  transitivity
    (ErrorString (msg +:+ ": " +:+ Error err +:+ newline +:+ (output +:+ "")));
    [done|].
  by rewrite append_nil_r.
Qed.

Lemma Errorf_create (err : error) :
  fmt_Errorf "failed to create temporary extension file: %w" [ArgError err]
  = WrapError ("failed to create temporary extension file: " +:+ Error err) err.
Proof.
  transitivity
    (WrapError ("failed to create temporary extension file: "
                +:+ (Error err +:+ "")) err); [done|].
  by rewrite append_nil_r.
Qed.

Lemma Errorf_write (err : error) :
  fmt_Errorf "failed to write to temporary extension file: %w" [ArgError err]
  = WrapError ("failed to write to temporary extension file: " +:+ Error err) err.
Proof.
  transitivity
    (WrapError ("failed to write to temporary extension file: "
                +:+ (Error err +:+ "")) err); [done|].
  by rewrite append_nil_r.
Qed.

Lemma Errorf_close (err : error) :
  fmt_Errorf "failed to close temporary extension file: %w" [ArgError err]
  = WrapError ("failed to close temporary extension file: " +:+ Error err) err.
Proof.
  transitivity
    (WrapError ("failed to close temporary extension file: "
                +:+ (Error err +:+ "")) err); [done|].
  by rewrite append_nil_r.
Qed.

Lemma Println_1 (s : string) :
  String.concat " " (fmt_operand <$> [ArgString s]) +:+ newline = s +:+ newline.
Proof. reflexivity. Qed.

Lemma Println_2 (s : string) (err : error) :
  String.concat " " (fmt_operand <$> [ArgString s; ArgError err]) +:+ newline
  = s +:+ " " +:+ Error err +:+ newline.
Proof.
  change (String.concat " " (fmt_operand <$> [ArgString s; ArgError err]))
    with (s +:+ " " +:+ Error err).
  by rewrite !append_assoc.
Qed.

Lemma lines_terminated (s : string) :
  has_newline s = false → lines (s +:+ newline) = [s].
Proof.
  induction s as [|c s IH]; [done|].
  change (String c s +:+ newline) with (String c (s +:+ newline)).
  cbn [has_newline lines].
  destruct (Ascii.eqb c (ascii_of_nat 10)); [done|].
  intros Hs. by rewrite (IH Hs).
Qed.

Lemma lines_SAN_line (s : string) :
  has_newline s = false →
  lines ("subjectAltName=URI:" +:+ s +:+ newline) = ["subjectAltName=URI:" +:+ s].
Proof.
  intros Hs. rewrite <- append_assoc. apply lines_terminated. exact Hs.
Qed.

(** Give the formatted texts their closed form. *)
Ltac texts :=
  rewrite ?Errorf_create, ?Errorf_write, ?Errorf_close, ?Errorf_run,
    ?Println_1, ?Sprintf_d, ?Sprintf_SAN_line.

(** ** One-shot commands *)

Lemma runCommand_run (E : Env) (cmd : Cmd) (errorMessage : string) (w : World) :
  runCommand E cmd errorMessage w =
    match env_CombinedOutput E w cmd with
    | (output, Some err, tmp') =>
        (Some (ErrorString
                 (errorMessage +:+ ": " +:+ Error err +:+ newline +:+ output)),
         emit (EvCombinedOutput cmd (w_tmp w) output (Some err)) (set_tmp tmp' w))
    | (output, None, tmp') =>
        (None,
         emit (EvStdout (output +:+ newline))
           (emit (EvCombinedOutput cmd (w_tmp w) output None) (set_tmp tmp' w)))
    end.
Proof.
  destruct w as [tmp running trace]. go. oracle; by rewrite ?Errorf_run.
Qed.

(** The four one-shot operations without a temporary file are
    [runCommand] on their command. *)
Lemma one_shot_through_runCommand (E : Env) (a b c d e f : string) (days : Z) :
  GeneratePrivateKey E a b
  = runCommand E (exec_Command "openssl" ["genpkey"; "-algorithm"; a; "-out"; b])
      "Failed to generate private key"
  ∧ GenerateRootCertificate E a b c d e days
    = runCommand E
        (exec_Command "openssl"
           ["req"; "-nodes"; "-new"; "-x509"; "-key"; a; "-out"; b;
            "-days"; pretty days; "-subj"; c;
            "-addext"; "subjectAltName=URI:" +:+ c; "-config"; e])
        "Failed to generate root certificate"
  ∧ GenerateCSR E a b c d e f
    = runCommand E
        (exec_Command "openssl"
           ["req"; "-nodes"; "-new"; "-newkey"; a; "-keyout"; b; "-out"; c;
            "-subj"; d; "-config"; f])
        "Failed to generate CSR"
  ∧ ValidateCertificate E a b
    = runCommand E (exec_Command "openssl" ["verify"; "-CAfile"; b; a])
        "Failed to validate certificate".
Proof.
  repeat split; try reflexivity.
  unfold GenerateRootCertificate. by rewrite Sprintf_d, Sprintf_SAN.
Qed.

(** C4: whatever command [runCommand] executes and under whatever
    message, when the process cannot be spawned or exits non-zero the
    returned error's text is the message, the text of the process error
    and the captured combined output, so it contains the last two, and
    nothing is printed; when the process succeeds nil is returned and the
    combined output is printed on standard output. *)
Theorem runCommand_reports
    (E : Env) (cmd : Cmd) (errorMessage : string) (w : World)
    (output : string) (r : option error) (tmp' : gmap string string) :
  env_CombinedOutput E w cmd = (output, r, tmp') →
  let out := runCommand E cmd errorMessage w in
  match r with
  | Some err =>
      ∃ e, out.1 = Some e
        ∧ Error e = errorMessage +:+ ": " +:+ Error err +:+ newline +:+ output
        ∧ contains (Error e) (Error err)
        ∧ contains (Error e) output
        ∧ events_since w out.2 = [EvCombinedOutput cmd (w_tmp w) output (Some err)]
  | None =>
      out.1 = None
      ∧ events_since w out.2
        = [EvCombinedOutput cmd (w_tmp w) output None;
           EvStdout (output +:+ newline)]
  end.
Proof.
  intros Hrun. cbv zeta. rewrite runCommand_run, Hrun.
  destruct w as [tmp running trace]. destruct r as [err|]; go.
  - eexists. split; [done|]. split; [done|]. cbn [Error].
    split; [|split].
    + apply contains_append_l, contains_append_l, contains_prefix.
    + do 3 apply contains_append_l. apply contains_suffix.
    + by new_events.
  - split; [done|]. by new_events.
Qed.

Lemma runCommand_reports_witness :
  ∃ e,
    (runCommand env_tool_fails
       (exec_Command "openssl" ["verify"; "-CAfile"; "/tmp/root.crt"; "/tmp/leaf.crt"])
       "Failed to validate certificate" w0).1 = Some e
    ∧ Error e = "Failed to validate certificate: exit status 1"
                +:+ newline +:+ "Could not open file or uri".
Proof.
  destruct (runCommand_reports env_tool_fails
              (exec_Command "openssl"
                 ["verify"; "-CAfile"; "/tmp/root.crt"; "/tmp/leaf.crt"])
              "Failed to validate certificate" w0
              "Could not open file or uri" (Some exit_status_1) ∅ eq_refl)
    as (e & He & Htext & _).
  exists e. split; [exact He | exact Htext].
Defined.

(** C9: for every algorithm string, empty or not, the key-generation
    command is run with that string unchanged as the value of
    [-algorithm]; it is the only command of the call, and the call
    returns nil exactly when the process reports no error. *)
Theorem GeneratePrivateKey_passthrough
    (E : Env) (algorithm outputFile : string) (w : World) :
  let cmd := exec_Command "openssl"
               ["genpkey"; "-algorithm"; algorithm; "-out"; outputFile] in
  let out := GeneratePrivateKey E algorithm outputFile w in
  let answer := env_CombinedOutput E w cmd in
  Args cmd !! 3%nat = Some algorithm
  ∧ head (events_since w out.2)
    = Some (EvCombinedOutput cmd (w_tmp w) answer.1.1 answer.1.2)
  ∧ (out.1 = None ↔ answer.1.2 = None)
  ∧ (∀ ev c, ev ∈ events_since w out.2 → event_cmd ev = Some c → c = cmd).
Proof.
  cbv zeta. unfold GeneratePrivateKey. rewrite runCommand_run.
  destruct w as [tmp running trace].
  split; [done|].
  destruct (env_CombinedOutput _ _ _) as [[output [err|]] tmp']; go; new_events.
  - split; [done|]. split; [done|].
    intros ev c ->%list_elem_of_singleton [= <-]. done.
  - split; [done|]. split; [done|].
    intros ev c Hev Hc. apply elem_of_cons in Hev as [->|Hev].
    + by injection Hc as <-.
    + apply list_elem_of_singleton in Hev as ->. discriminate.
Qed.

(** The command of [GenerateRootCertificate]: the value of [-addext]
    is built from [subj]. *)
Lemma GenerateRootCertificate_command
    (E : Env) (keyFile outputFile subj spiffeID configFile : string)
    (days : Z) (w : World) :
  ∃ output r rest,
    events_since w
      (GenerateRootCertificate E keyFile outputFile subj spiffeID configFile days w).2
    = EvCombinedOutput
        (exec_Command "openssl"
           ["req"; "-nodes"; "-new"; "-x509"; "-key"; keyFile;
            "-out"; outputFile; "-days"; pretty days; "-subj"; subj;
            "-addext"; "subjectAltName=URI:" +:+ subj; "-config"; configFile])
        (w_tmp w) output r :: rest.
Proof.
  unfold GenerateRootCertificate. rewrite runCommand_run, Sprintf_d, Sprintf_SAN.
  destruct w as [tmp running trace].
  destruct (env_CombinedOutput _ _ _) as [[output [err|]] tmp']; go; new_events;
    by eexists _, _, _.
Qed.

(** C1: at GenerateRootCertificate("/tmp/root.key", "/tmp/root.crt",
    "/CN=root", "spiffe://example/root", "/tmp/ossl.cnf", 3650) the
    command that is run carries the subject "/CN=root" after [-subj]
    and "subjectAltName=URI:/CN=root" after [-addext]; the extension
    built from the identity URI, "subjectAltName=URI:spiffe://example/root",
    is not among its arguments. *)
Theorem GenerateRootCertificate_addext_is_subject :
  ∃ c,
    w_trace (GenerateRootCertificate env_ok "/tmp/root.key" "/tmp/root.crt"
               "/CN=root" "spiffe://example/root" "/tmp/ossl.cnf" 3650 w0).2
    = [EvCombinedOutput c ∅ "ok" None; EvStdout ("ok" +:+ newline)]
    ∧ Args c = ["openssl"; "req"; "-nodes"; "-new"; "-x509";
                "-key"; "/tmp/root.key"; "-out"; "/tmp/root.crt";
                "-days"; "3650"; "-subj"; "/CN=root";
                "-addext"; "subjectAltName=URI:/CN=root";
                "-config"; "/tmp/ossl.cnf"]
    ∧ "subjectAltName=URI:spiffe://example/root" ∉ Args c.
Proof.
  eexists. split; [vm_compute; reflexivity|]. split; [reflexivity|].
  cbn [Args]. rewrite !not_elem_of_cons. repeat split; try discriminate.
  apply not_elem_of_nil.
Qed.

(** C10: two calls of [GenerateRootCertificate] that differ only in
    [spiffeID] return the same result and leave the same world, the
    command in the trace included; so do two such calls of
    [GenerateCSR]. *)
Theorem spiffeID_not_used
    (E : Env) (algorithm keyFile outputFile csrFile subj configFile : string)
    (spiffeID1 spiffeID2 : string) (days : Z) (w : World) :
  GenerateRootCertificate E keyFile outputFile subj spiffeID1 configFile days w
  = GenerateRootCertificate E keyFile outputFile subj spiffeID2 configFile days w
  ∧ GenerateCSR E algorithm keyFile csrFile subj spiffeID1 configFile w
    = GenerateCSR E algorithm keyFile csrFile subj spiffeID2 configFile w.
Proof. split; reflexivity. Qed.

(** ** Sessions *)

Lemma StartServer_table
    (E : Env) (certFile keyFile caFile : string) (w : World) :
  session_table E
    (exec_Command "openssl"
       ["s_server"; "-accept"; "4433"; "-state"; "-cert"; certFile;
        "-key"; keyFile; "-tls1_3"; "-Verify"; "1"; "-CAfile"; caFile; "-www"])
    "Error starting OpenSSL s_server:" w
    (StartServer E certFile keyFile caFile w).
Proof.
  destruct w as [tmp running trace].
  go; repeat oracle; rewrite ?Println_2; new_events; done.
Qed.

Lemma StartClient_table
    (E : Env) (address certFile keyFile caCertFile : string) (w : World) :
  session_table E
    (exec_Command "openssl"
       ["s_client"; "-connect"; address; "-state"; "-cert"; certFile;
        "-key"; keyFile; "-tls1_3"; "-CAfile"; caCertFile])
    "Error starting OpenSSL s_client:" w
    (StartClient E address certFile keyFile caCertFile w).
Proof.
  destruct w as [tmp running trace].
  go; repeat oracle; rewrite ?Println_2; new_events; done.
Qed.

(** C6: in [StartServer] and in [StartClient] alike the stdout pipe is
    asked for first, the stdin pipe second and the process is started
    third; a failed pipe ends the call before any start; every failure
    returns exactly (nil, nil, nil, err) and leaves no new process
    running; success returns the command, its stdin end, its stdout end
    and a nil error, with the process left running. *)
Theorem Start_order_and_results
    (E : Env) (address certFile keyFile caFile caCertFile : string) (w : World) :
  session_table E
    (exec_Command "openssl"
       ["s_server"; "-accept"; "4433"; "-state"; "-cert"; certFile;
        "-key"; keyFile; "-tls1_3"; "-Verify"; "1"; "-CAfile"; caFile; "-www"])
    "Error starting OpenSSL s_server:" w
    (StartServer E certFile keyFile caFile w)
  ∧ session_table E
      (exec_Command "openssl"
         ["s_client"; "-connect"; address; "-state"; "-cert"; certFile;
          "-key"; keyFile; "-tls1_3"; "-CAfile"; caCertFile])
      "Error starting OpenSSL s_client:" w
      (StartClient E address certFile keyFile caCertFile w).
Proof.
  destruct w as [tmp running trace].
  split; go; repeat oracle; rewrite ?Println_2; new_events; done.
Qed.

(** C8: every call of [StartServer] works on one command, the server
    command whose argument vector has [-accept 4433], [-Verify 1] and
    [-tls1_3] around the caller's three paths: it is the command of the
    first call made, of every call made, and of the handle returned. *)
Theorem StartServer_command
    (E : Env) (certFile keyFile caFile : string) (w : World) :
  let out := StartServer E certFile keyFile caFile w in
  let cmd := {| Path := "openssl";
                Args := ["openssl"; "s_server"; "-accept"; "4433"; "-state";
                         "-cert"; certFile; "-key"; keyFile;
                         "-tls1_3"; "-Verify"; "1"; "-CAfile"; caFile; "-www"] |} in
  (∃ r, head (events_since w out.2) = Some (EvStdoutPipe cmd r))
  ∧ (∀ ev c, ev ∈ events_since w out.2 → event_cmd ev = Some c → c = cmd)
  ∧ (∀ c, session_process out.1 = Some c → c = cmd)
  ∧ Args cmd !! 2%nat = Some "-accept" ∧ Args cmd !! 3%nat = Some "4433"
  ∧ Args cmd !! 10%nat = Some "-Verify" ∧ Args cmd !! 11%nat = Some "1"
  ∧ Args cmd !! 9%nat = Some "-tls1_3".
Proof.
  cbv zeta.
  pose proof (StartServer_table E certFile keyFile caFile w) as Hserver.
  unfold session_table in Hserver. cbv zeta in Hserver.
  set (out := StartServer E certFile keyFile caFile w) in *.
  assert (∀ (l : list Event) (cmd : Cmd),
            Forall (λ ev, ∀ c, event_cmd ev = Some c → c = cmd) l →
            ∀ ev c, ev ∈ l → event_cmd ev = Some c → c = cmd) as Hall.
  { intros l cmd Hl ev c Hev. rewrite Forall_forall in Hl. by apply Hl. }
  repeat match type of Hserver with
         | match ?r with _ => _ end => destruct r
         end;
    destruct Hserver as (Hres & -> & _); rewrite Hres;
    (split; [by eexists|]);
    (split; [apply Hall;
             repeat (apply Forall_cons_2; [by cbn; intros c ?; simplify_eq|]);
             apply Forall_nil_2|]);
    (split; [by cbn; intros c ?; simplify_eq|]); done.
Qed.

(** C3, as amended: when the stdout pipe, the stdin pipe or the start
    of the process fails, in [StartServer] and in [StartClient] alike,
    the caller receives (nil, nil, nil, err) where err is the very error
    of the failed step, not wrapped; the description of the operation is
    only printed, with the error's text, as the last thing written to
    standard output. *)
Theorem Start_failure_returned_bare
    (E : Env) (address certFile keyFile caFile caCertFile : string)
    (w : World) (err : error) :
  let server := StartServer E certFile keyFile caFile w in
  let client := StartClient E address certFile keyFile caCertFile w in
  (failed_setup (events_since w server.2) err →
   server.1 = (None, None, None, Some err)
   ∧ ∃ description,
       description ∈ ["Error creating stdout pipe:"; "Error creating stdin pipe:";
                      "Error starting OpenSSL s_server:"]
       ∧ last (events_since w server.2)
         = Some (EvStdout (description +:+ " " +:+ Error err +:+ newline)))
  ∧ (failed_setup (events_since w client.2) err →
     client.1 = (None, None, None, Some err)
     ∧ ∃ description,
         description ∈ ["Error creating stdout pipe:"; "Error creating stdin pipe:";
                        "Error starting OpenSSL s_client:"]
         ∧ last (events_since w client.2)
           = Some (EvStdout (description +:+ " " +:+ Error err +:+ newline))).
Proof.
  cbv zeta.
  pose proof (StartServer_table E certFile keyFile caFile w) as Hserver.
  pose proof (StartClient_table E address certFile keyFile caCertFile w) as Hclient.
  unfold session_table in Hserver, Hclient. cbv zeta in Hserver, Hclient.
  split.
  - repeat match type of Hserver with
           | match ?r with _ => _ end => destruct r
           end;
      destruct Hserver as (-> & -> & _); intros (c & Hfail);
      rewrite !elem_of_cons, !elem_of_nil in Hfail;
      destruct_or!; simplify_eq; (split; [done|]);
      first [ by exists "Error creating stdout pipe:"; split; [set_solver|]
            | by exists "Error creating stdin pipe:"; split; [set_solver|]
            | by eexists; split; [|reflexivity]; set_solver ].
  - repeat match type of Hclient with
           | match ?r with _ => _ end => destruct r
           end;
      destruct Hclient as (-> & -> & _); intros (c & Hfail);
      rewrite !elem_of_cons, !elem_of_nil in Hfail;
      destruct_or!; simplify_eq; (split; [done|]);
      first [ by exists "Error creating stdout pipe:"; split; [set_solver|]
            | by exists "Error creating stdin pipe:"; split; [set_solver|]
            | by eexists; split; [|reflexivity]; set_solver ].
Qed.

Lemma Start_failure_returned_bare_witness :
  failed_setup
    (events_since w0
       (StartServer env_no_pipe "server.crt" "server.key" "ca.crt" w0).2) EMFILE
  ∧ (StartServer env_no_pipe "server.crt" "server.key" "ca.crt" w0).1
    = (None, None, None, Some EMFILE).
Proof.
  assert (failed_setup
            (events_since w0
               (StartServer env_no_pipe "server.crt" "server.key" "ca.crt" w0).2)
            EMFILE) as Hfail.
  { eexists. left. vm_compute. apply list_elem_of_here. }
  split; [exact Hfail|].
  exact (proj1 (proj1 (Start_failure_returned_bare env_no_pipe
                         "127.0.0.1:4433" "server.crt" "server.key" "ca.crt"
                         "ca.crt" w0 EMFILE) Hfail)).
Defined.

(** C3, as stated, fails: with no pipe to be had, [StartServer] returns
    the error of [StdoutPipe] itself, not an error that wraps it with a
    description. *)
Lemma StartServer_error_not_wrapped :
  ¬ setup_failure_wrapped
      (events_since w0
         (StartServer env_no_pipe "server.crt" "server.key" "ca.crt" w0).2)
      (StartServer env_no_pipe "server.crt" "server.key" "ca.crt" w0).1
      EMFILE.
Proof.
  intros Hwrapped. destruct Hwrapped as (e & He & Hne & _).
  - eexists. left. vm_compute. apply list_elem_of_here.
  - vm_compute in He. injection He as <-. by apply Hne.
Qed.

(** ** Signing with a temporary extension file *)


(** A successful signing, step by step: the file is created, written,
    closed, handed to the toolkit and removed; the temporary directory
    ends as empty as it began. *)
Example SignCertificate_ok_run :
  SignCertificate env_ok "/tmp/leaf.csr" "/tmp/root.crt" "/tmp/root.key"
    "spiffe://example/leaf" "/tmp/leaf.crt" 365 w0
  = (None,
     {| w_tmp := ∅; w_running := [];
        w_trace :=
          [EvTempFile "extfile-*.conf" (inl "/tmp/extfile-1.conf");
           EvWriteString "/tmp/extfile-1.conf"
             ("subjectAltName=URI:spiffe://example/leaf" +:+ newline) None;
           EvClose "/tmp/extfile-1.conf" None;
           EvCombinedOutput
             (exec_Command "openssl"
                ["x509"; "-req"; "-extfile"; "/tmp/extfile-1.conf";
                 "-in"; "/tmp/leaf.csr"; "-CA"; "/tmp/root.crt";
                 "-CAkey"; "/tmp/root.key"; "-CAcreateserial";
                 "-out"; "/tmp/leaf.crt"; "-days"; "365"])
             {["/tmp/extfile-1.conf" :=
                 "subjectAltName=URI:spiffe://example/leaf" +:+ newline]}
             "ok" None;
           EvStdout ("ok" +:+ newline);
           EvRemove "/tmp/extfile-1.conf" None] |}).
Proof. vm_compute. reflexivity. Qed.


(** C7, as amended: whenever [SignCertificate] runs the signing
    process, the temporary file it created holds, at that moment, exactly
    the text "subjectAltName=URI:", the identity URI as given and a
    newline, which is one line whenever the identity URI has no newline
    in it; and the command is [openssl x509 -req] with that file after
    [-extfile], the CSR after [-in], the CA certificate after [-CA], the
    CA key after [-CAkey], the flag [-CAcreateserial], the output path
    after [-out] and the days in decimal after [-days]. *)
Theorem SignCertificate_signing_step
    (E : Env) (csrFile caCertFile caKeyFile spiffeID outputFile : string)
    (days : Z) (w : World)
    (c : Cmd) (tmp : gmap string string) (output : string) (r : option error) :
  EvCombinedOutput c tmp output r
    ∈ events_since w
        (SignCertificate E csrFile caCertFile caKeyFile spiffeID
           outputFile days w).2 →
  ∃ extFile,
    EvTempFile "extfile-*.conf" (inl extFile)
      ∈ events_since w
          (SignCertificate E csrFile caCertFile caKeyFile spiffeID
             outputFile days w).2
    ∧ tmp !! extFile = Some ("subjectAltName=URI:" +:+ spiffeID +:+ newline)
    ∧ c = exec_Command "openssl"
            ["x509"; "-req"; "-extfile"; extFile; "-in"; csrFile;
             "-CA"; caCertFile; "-CAkey"; caKeyFile; "-CAcreateserial";
             "-out"; outputFile; "-days"; pretty days]
    ∧ (has_newline spiffeID = false →
       lines <$> tmp !! extFile = Some ["subjectAltName=URI:" +:+ spiffeID]).
Proof.
  destruct w as [tmp0 running trace]. go.
  repeat oracle; texts; new_events; intros Hrun; which_event;
    (eexists; split; [apply list_elem_of_here|]);
    rewrite lookup_alter_eq, lookup_insert_eq;
    (split; [done|]); (split; [done|]);
    intros Hid; cbn [fmap option_fmap option_map];
    change ("" +:+ "subjectAltName=URI:" +:+ spiffeID +:+ newline)
      with ("subjectAltName=URI:" +:+ spiffeID +:+ newline);
    by rewrite (lines_SAN_line _ Hid).
Qed.

Lemma SignCertificate_signing_step_witness :
  ∃ extFile,
    ({["/tmp/extfile-1.conf" :=
         "subjectAltName=URI:spiffe://example/leaf" +:+ newline]}
       : gmap string string) !! extFile
    = Some ("subjectAltName=URI:" +:+ "spiffe://example/leaf" +:+ newline)
    ∧ exec_Command "openssl"
        ["x509"; "-req"; "-extfile"; "/tmp/extfile-1.conf";
         "-in"; "/tmp/leaf.csr"; "-CA"; "/tmp/root.crt";
         "-CAkey"; "/tmp/root.key"; "-CAcreateserial";
         "-out"; "/tmp/leaf.crt"; "-days"; "365"]
      = exec_Command "openssl"
          ["x509"; "-req"; "-extfile"; extFile; "-in"; "/tmp/leaf.csr";
           "-CA"; "/tmp/root.crt"; "-CAkey"; "/tmp/root.key";
           "-CAcreateserial"; "-out"; "/tmp/leaf.crt"; "-days"; pretty 365]
    ∧ lines <$> ({["/tmp/extfile-1.conf" :=
                     "subjectAltName=URI:spiffe://example/leaf" +:+ newline]}
                   : gmap string string) !! extFile
      = Some ["subjectAltName=URI:" +:+ "spiffe://example/leaf"].
Proof.
  destruct (SignCertificate_signing_step env_ok "/tmp/leaf.csr" "/tmp/root.crt"
              "/tmp/root.key" "spiffe://example/leaf" "/tmp/leaf.crt" 365 w0
              (exec_Command "openssl"
                 ["x509"; "-req"; "-extfile"; "/tmp/extfile-1.conf";
                  "-in"; "/tmp/leaf.csr"; "-CA"; "/tmp/root.crt";
                  "-CAkey"; "/tmp/root.key"; "-CAcreateserial";
                  "-out"; "/tmp/leaf.crt"; "-days"; "365"])
              {["/tmp/extfile-1.conf" :=
                  "subjectAltName=URI:spiffe://example/leaf" +:+ newline]}
              "ok" None) as (extFile & _ & Hline & Hcmd & Hone).
  - rewrite SignCertificate_ok_run. unfold events_since. cbn [w_trace w0 length drop].
    do 3 apply list_elem_of_further. apply list_elem_of_here.
  - exists extFile. split; [exact Hline|]. split; [exact Hcmd|].
    apply Hone. reflexivity.
Defined.

(** C7, as stated, fails: the identity URI is written as given, so with
    "spiffe://example/leaf", a newline and "basicConstraints=CA:TRUE" as
    identity URI the signing process is run on an extension file of two
    lines, the second one chosen by the caller. *)
Lemma SignCertificate_extension_file_two_lines :
  EvCombinedOutput
    (exec_Command "openssl"
       ["x509"; "-req"; "-extfile"; "/tmp/extfile-1.conf";
        "-in"; "/tmp/leaf.csr"; "-CA"; "/tmp/root.crt";
        "-CAkey"; "/tmp/root.key"; "-CAcreateserial";
        "-out"; "/tmp/leaf.crt"; "-days"; "365"])
    {["/tmp/extfile-1.conf" :=
        "subjectAltName=URI:spiffe://example/leaf" +:+ newline
        +:+ "basicConstraints=CA:TRUE" +:+ newline]}
    "ok" None
    ∈ events_since w0
        (SignCertificate env_ok "/tmp/leaf.csr" "/tmp/root.crt" "/tmp/root.key"
           ("spiffe://example/leaf" +:+ newline +:+ "basicConstraints=CA:TRUE")
           "/tmp/leaf.crt" 365 w0).2
  ∧ lines ("subjectAltName=URI:spiffe://example/leaf" +:+ newline
           +:+ "basicConstraints=CA:TRUE" +:+ newline)
    = ["subjectAltName=URI:spiffe://example/leaf"; "basicConstraints=CA:TRUE"]
  ∧ lines ("subjectAltName=URI:spiffe://example/leaf" +:+ newline
           +:+ "basicConstraints=CA:TRUE" +:+ newline)
    ≠ ["subjectAltName=URI:"
       +:+ "spiffe://example/leaf" +:+ newline +:+ "basicConstraints=CA:TRUE"].
Proof.
  split; [|split].
  - vm_compute. do 3 apply list_elem_of_further. apply list_elem_of_here.
  - vm_compute. reflexivity.
  - vm_compute. discriminate.
Qed.





(** ** Further properties of the one-shot operations *)

Lemma runCommand_table (E : Env) (cmd : Cmd) (errorMessage : string) (w : World) :
  one_shot_table E cmd errorMessage w (runCommand E cmd errorMessage w).
Proof.
  rewrite runCommand_run. destruct w as [tmp running trace]. go.
  destruct (env_CombinedOutput _ _ _) as [[output [err|]] tmp']; go; new_events;
    done.
Qed.

(** X1: [ValidateCertificate] runs one process, [openssl verify] with
    the CA certificate after [-CAfile] and the certificate to check
    last; it returns nil exactly when that process reports no error and
    then prints its output, and otherwise returns "Failed to validate
    certificate", the process error and the captured output in one text;
    it leaves nothing running. *)
Theorem ValidateCertificate_contract
    (E : Env) (certFile caCertFile : string) (w : World) :
  one_shot_table E
    (exec_Command "openssl" ["verify"; "-CAfile"; caCertFile; certFile])
    "Failed to validate certificate" w
    (ValidateCertificate E certFile caCertFile w)
  ∧ ((ValidateCertificate E certFile caCertFile w).1 = None
     ↔ (env_CombinedOutput E w
          (exec_Command "openssl" ["verify"; "-CAfile"; caCertFile; certFile])).1.2
       = None).
Proof.
  pose proof (runCommand_table E
                (exec_Command "openssl" ["verify"; "-CAfile"; caCertFile; certFile])
                "Failed to validate certificate" w) as Htable.
  split; [exact Htable|].
  unfold one_shot_table in Htable. cbv zeta in Htable.
  change (ValidateCertificate E certFile caCertFile w)
    with (runCommand E
            (exec_Command "openssl" ["verify"; "-CAfile"; caCertFile; certFile])
            "Failed to validate certificate" w).
  destruct ((env_CombinedOutput E w _).1.2) as [err|];
    destruct Htable as [[-> _] _]; split; intros; done.
Qed.

(** X2: [GenerateCSR] creates key and request in one run of one
    process, [openssl req -nodes -new] with the algorithm after
    [-newkey], the key path after [-keyout], the request path after
    [-out], then [-subj] and [-config]; the result is nil exactly when
    that process reports no error. *)
Theorem GenerateCSR_contract
    (E : Env) (algorithm keyFile csrFile subj spiffeID configFile : string)
    (w : World) :
  one_shot_table E
    (exec_Command "openssl"
       ["req"; "-nodes"; "-new"; "-newkey"; algorithm; "-keyout"; keyFile;
        "-out"; csrFile; "-subj"; subj; "-config"; configFile])
    "Failed to generate CSR" w
    (GenerateCSR E algorithm keyFile csrFile subj spiffeID configFile w)
  ∧ ((GenerateCSR E algorithm keyFile csrFile subj spiffeID configFile w).1 = None
     ↔ (env_CombinedOutput E w
          (exec_Command "openssl"
             ["req"; "-nodes"; "-new"; "-newkey"; algorithm; "-keyout"; keyFile;
              "-out"; csrFile; "-subj"; subj; "-config"; configFile])).1.2
       = None).
Proof.
  pose proof (runCommand_table E
                (exec_Command "openssl"
                   ["req"; "-nodes"; "-new"; "-newkey"; algorithm;
                    "-keyout"; keyFile; "-out"; csrFile; "-subj"; subj;
                    "-config"; configFile])
                "Failed to generate CSR" w) as Htable.
  split; [exact Htable|].
  unfold one_shot_table in Htable. cbv zeta in Htable.
  change (GenerateCSR E algorithm keyFile csrFile subj spiffeID configFile w)
    with (runCommand E
            (exec_Command "openssl"
               ["req"; "-nodes"; "-new"; "-newkey"; algorithm;
                "-keyout"; keyFile; "-out"; csrFile; "-subj"; subj;
                "-config"; configFile])
            "Failed to generate CSR" w).
  destruct ((env_CombinedOutput E w _).1.2) as [err|];
    destruct Htable as [[-> _] _]; split; intros; done.
Qed.

(** X3: [GenerateRootCertificate] checks none of its arguments: for
    every number of days, zero and negative ones included, it runs one
    process, [openssl req -nodes -new -x509], with the days in decimal
    after [-days] and the subject both after [-subj] and inside the value
    of [-addext]; the result is nil exactly when that process reports no
    error. *)
Theorem GenerateRootCertificate_contract
    (E : Env) (keyFile outputFile subj spiffeID configFile : string)
    (days : Z) (w : World) :
  one_shot_table E
    (exec_Command "openssl"
       ["req"; "-nodes"; "-new"; "-x509"; "-key"; keyFile; "-out"; outputFile;
        "-days"; pretty days; "-subj"; subj;
        "-addext"; "subjectAltName=URI:" +:+ subj; "-config"; configFile])
    "Failed to generate root certificate" w
    (GenerateRootCertificate E keyFile outputFile subj spiffeID configFile days w)
  ∧ ((GenerateRootCertificate E keyFile outputFile subj spiffeID configFile
        days w).1 = None
     ↔ (env_CombinedOutput E w
          (exec_Command "openssl"
             ["req"; "-nodes"; "-new"; "-x509"; "-key"; keyFile;
              "-out"; outputFile; "-days"; pretty days; "-subj"; subj;
              "-addext"; "subjectAltName=URI:" +:+ subj;
              "-config"; configFile])).1.2
       = None).
Proof.
  pose proof (runCommand_table E
                (exec_Command "openssl"
                   ["req"; "-nodes"; "-new"; "-x509"; "-key"; keyFile;
                    "-out"; outputFile; "-days"; pretty days; "-subj"; subj;
                    "-addext"; "subjectAltName=URI:" +:+ subj;
                    "-config"; configFile])
                "Failed to generate root certificate" w) as Htable.
  unfold GenerateRootCertificate. rewrite Sprintf_d, Sprintf_SAN.
  split; [exact Htable|].
  unfold one_shot_table in Htable. cbv zeta in Htable.
  destruct ((env_CombinedOutput E w _).1.2) as [err|];
    destruct Htable as [[-> _] _]; split; intros; done.
Qed.

(** X5: an error that comes back from [runCommand] cannot be unwrapped:
    the process error is in its text but [errors.Unwrap] gives nil, so
    the caller cannot reach the exit error through the error chain. *)
Theorem runCommand_error_opaque
    (E : Env) (cmd : Cmd) (errorMessage : string) (w : World) (e : error) :
  (runCommand E cmd errorMessage w).1 = Some e →
  Unwrap e = None
  ∧ ∃ output err,
      EvCombinedOutput cmd (w_tmp w) output (Some err)
        ∈ events_since w (runCommand E cmd errorMessage w).2
      ∧ contains (Error e) (Error err).
Proof.
  pose proof (runCommand_table E cmd errorMessage w) as Htable.
  unfold one_shot_table in Htable. cbv zeta in Htable.
  destruct ((env_CombinedOutput E w cmd).1.2) as [err|];
    destruct Htable as [[-> ->] _]; intros [= <-].
  split; [done|]. eexists _, err. split; [apply list_elem_of_here|].
  cbn [Error]. apply contains_append_l, contains_append_l, contains_prefix.
Qed.

Lemma runCommand_error_opaque_witness :
  ∃ e,
    (runCommand env_no_binary
       (exec_Command "openssl" ["genpkey"; "-algorithm"; "dilithium3"; "-out"; "k.pem"])
       "Failed to generate private key" w0).1 = Some e
    ∧ Unwrap e = None.
Proof.
  eexists. split; [vm_compute; reflexivity|].
  exact (proj1 (runCommand_error_opaque env_no_binary
                  (exec_Command "openssl"
                     ["genpkey"; "-algorithm"; "dilithium3"; "-out"; "k.pem"])
                  "Failed to generate private key" w0 _ eq_refl)).
Defined.

(** ** Further properties of signing *)

Lemma SignCertificate_shapes
    (E : Env) (csrFile caCertFile caKeyFile spiffeID outputFile : string)
    (days : Z) (w : World) :
  sign_shapes ("subjectAltName=URI:" +:+ spiffeID +:+ newline)
    (λ extFile,
       exec_Command "openssl"
         ["x509"; "-req"; "-extfile"; extFile; "-in"; csrFile;
          "-CA"; caCertFile; "-CAkey"; caKeyFile; "-CAcreateserial";
          "-out"; outputFile; "-days"; pretty days])
    w (SignCertificate E csrFile caCertFile caKeyFile spiffeID outputFile days w)
  ∧ w_running
      (SignCertificate E csrFile caCertFile caKeyFile spiffeID outputFile days w).2
    = w_running w.
Proof.
  destruct w as [tmp running trace]. go.
  repeat oracle; texts; new_events; (split; [|done]);
    first [ by left; repeat eexists
          | by right; left; repeat eexists
          | by do 2 right; left; repeat eexists
          | by do 3 right; left; repeat eexists
          | by do 4 right; repeat eexists ].
Qed.

(** Read a shape off [sign_shapes]. *)
Ltac shapes H :=
  unfold sign_shapes in H; cbv zeta in H;
  destruct H as [(err & Hevs & Hres)
                |[(name & err & r & Hevs & Hres)
                 |[(name & err & r & Hevs & Hres)
                  |[(name & tmp & output & err & r & Hevs & Hres)
                   |(name & tmp & output & r & Hevs & Hres)]]]].



(** X7: [SignCertificate] returns nil exactly when it ran through in
    this order: the file is created, the one line is written, the file
    is closed, only then the signing process is run with the file's name
    and reports no error, its output is printed, and the file is removed.
    Whether that removal succeeds does not show in the result. *)
Theorem SignCertificate_success_trace
    (E : Env) (csrFile caCertFile caKeyFile spiffeID outputFile : string)
    (days : Z) (w : World) :
  let out := SignCertificate E csrFile caCertFile caKeyFile spiffeID
               outputFile days w in
  out.1 = None
  ↔ ∃ name tmp output r,
      events_since w out.2
      = [EvTempFile "extfile-*.conf" (inl name);
         EvWriteString name ("subjectAltName=URI:" +:+ spiffeID +:+ newline) None;
         EvClose name None;
         EvCombinedOutput
           (exec_Command "openssl"
              ["x509"; "-req"; "-extfile"; name; "-in"; csrFile;
               "-CA"; caCertFile; "-CAkey"; caKeyFile; "-CAcreateserial";
               "-out"; outputFile; "-days"; pretty days])
           tmp output None;
         EvStdout (output +:+ newline);
         EvRemove name r].
Proof.
  cbv zeta.
  destruct (SignCertificate_shapes E csrFile caCertFile caKeyFile spiffeID
              outputFile days w) as [Hshape _].
  shapes Hshape; rewrite Hevs, Hres; split;
    first [ discriminate
          | by intros (? & ? & ? & ? & [=])
          | by intros _; eexists _, _, _, _ ].
Qed.

(** X8: when the write to the temporary file fails, [SignCertificate]
    never closes the file: after the failed write the only further call
    is the removal of the file. *)
Theorem SignCertificate_write_failure_no_close
    (E : Env) (csrFile caCertFile caKeyFile spiffeID outputFile : string)
    (days : Z) (w : World) (file data : string) (failure : error) :
  let evs := events_since w
               (SignCertificate E csrFile caCertFile caKeyFile spiffeID
                  outputFile days w).2 in
  EvWriteString file data (Some failure) ∈ evs →
  (∀ f r, EvClose f r ∉ evs)
  ∧ ∃ r, evs = [EvTempFile "extfile-*.conf" (inl file);
                EvWriteString file data (Some failure);
                EvRemove file r].
Proof.
  cbv zeta.
  destruct (SignCertificate_shapes E csrFile caCertFile caKeyFile spiffeID
              outputFile days w) as [Hshape _].
  shapes Hshape; rewrite Hevs; intros Hin; which_event.
  split; [|by eexists].
  intros f r' Hclose. which_event.
Qed.

Lemma SignCertificate_write_failure_no_close_witness :
  ∃ r,
    events_since w0
      (SignCertificate env_write_fails "/tmp/leaf.csr" "/tmp/root.crt"
         "/tmp/root.key" "spiffe://example/leaf" "/tmp/leaf.crt" 365 w0).2
    = [EvTempFile "extfile-*.conf" (inl "/tmp/extfile-1.conf");
       EvWriteString "/tmp/extfile-1.conf"
         ("subjectAltName=URI:spiffe://example/leaf" +:+ newline) (Some ENOSPC);
       EvRemove "/tmp/extfile-1.conf" r].
Proof.
  refine (proj2 (SignCertificate_write_failure_no_close env_write_fails
                   "/tmp/leaf.csr" "/tmp/root.crt" "/tmp/root.key"
                   "spiffe://example/leaf" "/tmp/leaf.crt" 365 w0
                   "/tmp/extfile-1.conf"
                   ("subjectAltName=URI:spiffe://example/leaf" +:+ newline)
                   ENOSPC _)).
  vm_compute. apply list_elem_of_further, list_elem_of_here.
Defined.

(** X9: [SignCertificate] never overwrites or removes a file that was
    in the temporary directory before the call: provided the signing
    process leaves that file alone, it is there with the same contents
    after the call, also when its name is the one proposed for the
    temporary file. *)
Theorem SignCertificate_preserves_other_files
    (E : Env) (csrFile caCertFile caKeyFile spiffeID outputFile : string)
    (days : Z) (w : World) (k v : string) :
  w_tmp w !! k = Some v →
  (∀ w1 c, (env_CombinedOutput E w1 c).2 !! k = w_tmp w1 !! k) →
  w_tmp (SignCertificate E csrFile caCertFile caKeyFile spiffeID
           outputFile days w).2 !! k = Some v.
Proof.
  destruct w as [tmp running trace]. go. intros Hk Htool.
  repeat oracle;
    try match goal with
        | Hn : _ !! ?n = None |- _ => assert (n ≠ k) by (intros ->; congruence)
        end;
    tool_frame Htool;
    repeat first
      [ rewrite lookup_delete_ne by done
      | rewrite lookup_alter_ne by done
      | rewrite lookup_insert_ne by done
      | match goal with
        | H : ?t !! k = _ |- context [?t !! k] => rewrite H
        end ];
    done.
Qed.

Lemma SignCertificate_preserves_other_files_witness :
  w_tmp (SignCertificate env_ok "/tmp/leaf.csr" "/tmp/root.crt" "/tmp/root.key"
           "spiffe://example/leaf" "/tmp/leaf.crt" 365 w_taken).2
    !! "/tmp/extfile-1.conf"
  = Some "earlier contents".
Proof.
  refine (SignCertificate_preserves_other_files env_ok "/tmp/leaf.csr"
            "/tmp/root.crt" "/tmp/root.key" "spiffe://example/leaf"
            "/tmp/leaf.crt" 365 w_taken "/tmp/extfile-1.conf"
            "earlier contents" _ _).
  - vm_compute. reflexivity.
  - intros w1 c. reflexivity.
Defined.

(** X11: each of the five one-shot operations waits for its process:
    the call concerns at most one command and leaves the list of running
    processes as it was. *)
Theorem one_shot_waits_for_its_process
    (E : Env) (a b c d e f : string) (days : Z) (w : World) :
  waits_for_its_process w (GeneratePrivateKey E a b w)
  ∧ waits_for_its_process w (GenerateRootCertificate E a b c d e days w)
  ∧ waits_for_its_process w (GenerateCSR E a b c d e f w)
  ∧ waits_for_its_process w (SignCertificate E a b c d e days w)
  ∧ waits_for_its_process w (ValidateCertificate E a b w).
Proof.
  assert (∀ cmd msg, waits_for_its_process w (runCommand E cmd msg w)) as Hrun.
  { intros cmd msg. pose proof (runCommand_table E cmd msg w) as Htable.
    unfold one_shot_table in Htable. cbv zeta in Htable.
    destruct ((env_CombinedOutput E w cmd).1.2);
      destruct Htable as ((_ & Hevs) & _ & Hrunning);
      split; [done | by rewrite Hevs | done | by rewrite Hevs]. }
  split; [apply Hrun|]. split; [apply Hrun|]. split; [apply Hrun|].
  split; [|apply Hrun].
  destruct (SignCertificate_shapes E a b c d e days w) as [Hshape Hrunning].
  split; [done|].
  shapes Hshape; rewrite Hevs; cbn; lia.
Qed.

(** ** Further properties of sessions *)

(** X4: every call of [StartClient] works on one command, the client
    command with the caller's address after [-connect], the caller's
    certificate, key and CA file, and [-tls1_3]: it is the command of the
    first call made, of every call made, and of the handle returned. *)
Theorem StartClient_command
    (E : Env) (address certFile keyFile caCertFile : string) (w : World) :
  let out := StartClient E address certFile keyFile caCertFile w in
  let cmd := {| Path := "openssl";
                Args := ["openssl"; "s_client"; "-connect"; address; "-state";
                         "-cert"; certFile; "-key"; keyFile;
                         "-tls1_3"; "-CAfile"; caCertFile] |} in
  (∃ r, head (events_since w out.2) = Some (EvStdoutPipe cmd r))
  ∧ (∀ ev c, ev ∈ events_since w out.2 → event_cmd ev = Some c → c = cmd)
  ∧ (∀ c, session_process out.1 = Some c → c = cmd).
Proof.
  cbv zeta.
  pose proof (StartClient_table E address certFile keyFile caCertFile w) as Hclient.
  unfold session_table in Hclient. cbv zeta in Hclient.
  set (out := StartClient E address certFile keyFile caCertFile w) in *.
  assert (∀ (l : list Event) (cmd : Cmd),
            Forall (λ ev, ∀ c, event_cmd ev = Some c → c = cmd) l →
            ∀ ev c, ev ∈ l → event_cmd ev = Some c → c = cmd) as Hall.
  { intros l cmd Hl ev c Hev. rewrite Forall_forall in Hl. by apply Hl. }
  repeat match type of Hclient with
         | match ?r with _ => _ end => destruct r
         end;
    destruct Hclient as (Hres & -> & _); rewrite Hres;
    (split; [by eexists|]);
    (split; [apply Hall;
             repeat (apply Forall_cons_2; [by cbn; intros c ?; simplify_eq|]);
             apply Forall_nil_2|]);
    by cbn; intros c ?; simplify_eq.
Qed.

(** X10: [StartServer] and [StartClient] start no process they do not
    hand back: the processes running after the call are those running
    before plus the returned handle, if any; the calls run no process to
    completion and leave the temporary directory untouched. *)
Theorem Start_no_orphan
    (E : Env) (address certFile keyFile caFile caCertFile : string) (w : World) :
  let server := StartServer E certFile keyFile caFile w in
  let client := StartClient E address certFile keyFile caCertFile w in
  (w_running server.2 = w_running w ++ option_list (session_process server.1)
   ∧ no_process (events_since w server.2)
   ∧ w_tmp server.2 = w_tmp w)
  ∧ (w_running client.2 = w_running w ++ option_list (session_process client.1)
     ∧ no_process (events_since w client.2)
     ∧ w_tmp client.2 = w_tmp w).
Proof.
  cbv zeta. destruct w as [tmp running trace].
  split; go; repeat oracle; new_events;
    (split; [by rewrite ?app_nil_r|]); (split; [|done]);
    unfold no_process, not; intros; which_event.
Qed.

(** X12: [StartServer] followed by [StartClient]: when none of the six
    set-up calls fails, the two calls return two process handles and
    four pipe ends, none nil, with nil errors, and both processes are
    running, the server first. *)
Theorem server_then_client
    (E : Env) (address certFile keyFile caFile certFile2 keyFile2 : string)
    (w : World) :
  let scmd := exec_Command "openssl"
                ["s_server"; "-accept"; "4433"; "-state"; "-cert"; certFile;
                 "-key"; keyFile; "-tls1_3"; "-Verify"; "1";
                 "-CAfile"; caFile; "-www"] in
  let ccmd := exec_Command "openssl"
                ["s_client"; "-connect"; address; "-state"; "-cert"; certFile2;
                 "-key"; keyFile2; "-tls1_3"; "-CAfile"; caFile] in
  let server := StartServer E certFile keyFile caFile w in
  let client := StartClient E address certFile2 keyFile2 caFile server.2 in
  (∀ err, ¬ failed_setup (events_since w client.2) err) →
  server.1 = (Some scmd, Some (StdinOf scmd), Some (StdoutOf scmd), None)
  ∧ client.1 = (Some ccmd, Some (StdinOf ccmd), Some (StdoutOf ccmd), None)
  ∧ w_running client.2 = w_running w ++ [scmd; ccmd].
Proof.
  cbv zeta. destruct w as [tmp running trace]. go.
  repeat oracle; new_events; intros Hnone;
    first [ by exfalso; eapply Hnone; eexists; left; in_events
          | by exfalso; eapply Hnone; eexists; right; left; in_events
          | by exfalso; eapply Hnone; eexists; right; right; in_events
          | done ].
Qed.

Lemma server_then_client_witness :
  w_running
    (StartClient env_ok "127.0.0.1:4433" "client.crt" "client.key" "ca.crt"
       (StartServer env_ok "server.crt" "server.key" "ca.crt" w0).2).2
  = w_running w0
    ++ [exec_Command "openssl"
          ["s_server"; "-accept"; "4433"; "-state"; "-cert"; "server.crt";
           "-key"; "server.key"; "-tls1_3"; "-Verify"; "1";
           "-CAfile"; "ca.crt"; "-www"];
        exec_Command "openssl"
          ["s_client"; "-connect"; "127.0.0.1:4433"; "-state";
           "-cert"; "client.crt"; "-key"; "client.key"; "-tls1_3";
           "-CAfile"; "ca.crt"]].
Proof.
  refine (proj2 (proj2 (server_then_client env_ok "127.0.0.1:4433"
                          "server.crt" "server.key" "ca.crt"
                          "client.crt" "client.key" w0 _))).
  intros err (c & Hfail).
  assert (events_since w0
            (StartClient env_ok "127.0.0.1:4433" "client.crt" "client.key"
               "ca.crt"
               (StartServer env_ok "server.crt" "server.key" "ca.crt" w0).2).2
          = [EvStdoutPipe
               (exec_Command "openssl"
                  ["s_server"; "-accept"; "4433"; "-state"; "-cert"; "server.crt";
                   "-key"; "server.key"; "-tls1_3"; "-Verify"; "1";
                   "-CAfile"; "ca.crt"; "-www"]) None;
             EvStdinPipe
               (exec_Command "openssl"
                  ["s_server"; "-accept"; "4433"; "-state"; "-cert"; "server.crt";
                   "-key"; "server.key"; "-tls1_3"; "-Verify"; "1";
                   "-CAfile"; "ca.crt"; "-www"]) None;
             EvStart
               (exec_Command "openssl"
                  ["s_server"; "-accept"; "4433"; "-state"; "-cert"; "server.crt";
                   "-key"; "server.key"; "-tls1_3"; "-Verify"; "1";
                   "-CAfile"; "ca.crt"; "-www"]) None;
             EvStdoutPipe
               (exec_Command "openssl"
                  ["s_client"; "-connect"; "127.0.0.1:4433"; "-state";
                   "-cert"; "client.crt"; "-key"; "client.key"; "-tls1_3";
                   "-CAfile"; "ca.crt"]) None;
             EvStdinPipe
               (exec_Command "openssl"
                  ["s_client"; "-connect"; "127.0.0.1:4433"; "-state";
                   "-cert"; "client.crt"; "-key"; "client.key"; "-tls1_3";
                   "-CAfile"; "ca.crt"]) None;
             EvStart
               (exec_Command "openssl"
                  ["s_client"; "-connect"; "127.0.0.1:4433"; "-state";
                   "-cert"; "client.crt"; "-key"; "client.key"; "-tls1_3";
                   "-CAfile"; "ca.crt"]) None]) as Hevs
    by (vm_compute; reflexivity).
  rewrite Hevs in Hfail. destruct Hfail as [Hin|[Hin|Hin]]; which_event.
Defined.
